(** * detect.py: the frame gate, the fps estimator and the capture loop

    A shallow embedding of [src/detect.py].  The module has three functions,
    [run], [main] and [get_mse]; the loop of [run] (lines 60-100) and
    [get_mse] (lines 144-149) carry all of its logic.

    Python semantics that the statements below depend on are modelled
    explicitly:
    - a global name is looked up in the module namespace when the expression
      that mentions it is evaluated, and raises [NameError] when unbound;
    - a local that was never assigned raises [UnboundLocalError] when read;
    - a list is a mutable object: what was appended before an exception is
      raised stays appended;
    - all arrays are numpy arrays of dtype uint8, with OpenCV's saturating
      and numpy's wrapping arithmetic written out; what [cv2.subtract] does
      with operands outside the frames of this program is a parameter, the
      class [opencv].

    Clock readings and quotients are exact rationals: the rounding of
    Python's binary floating point is not modelled.  The camera, the detector
    and the result sink are external; their calls are assumed to return and
    are recorded in a trace. *)

From Stdlib Require Import ZArith QArith List String Bool Lia.
Import ListNotations.
Local Open Scope string_scope.
Local Open Scope list_scope.
Local Open Scope Z_scope.

(** ** Exceptions and results *)

Inductive exn : Type :=
| NameError (name : string)
| UnboundLocalError (name : string)
| ValueError
| TypeError
| IndexError
| ZeroDivisionError
| Cv2Error.


Inductive result (A : Type) : Type :=
| Ok (a : A)
| Raised (e : exn).
Arguments Ok {A} a.
Arguments Raised {A} e.

Definition rbind {A B : Type} (r : result A) (k : A -> result B) : result B :=
  match r with
  | Ok a => k a
  | Raised e => Raised e
  end.

Notation "'let?' x ':=' r 'in' k" := (rbind r (fun x => k))
  (at level 10, x pattern, r at level 100, k at level 200).

(** ** The module namespace (lines 1-11 and the three [def]s)

    Builtins ([len], [float]) always resolve and are not listed. *)

Definition module_names : list string :=
  [ "argparse"; "sys"; "time"; "cv2"; "core"; "processor"; "vision"; "utils";
    "Picamera2"; "run"; "main"; "get_mse" ].

Definition bound (G : list string) (x : string) : bool :=
  existsb (String.eqb x) G.

(** Loading a global name: [NameError] when the namespace does not bind it. *)
Definition load_global (G : list string) (x : string) : result unit :=
  if bound G x then Ok tt else Raised (NameError x).

(** ** Arrays of dtype uint8 *)

Record ndarray : Type := mk_ndarray { shape : list Z; data : list Z }.

(** [h, w = a.shape]: the tuple must have exactly two components. *)
Definition unpack2 (sh : list Z) : result (Z * Z) :=
  match sh with
  | [h; w] => Ok (h, w)
  | _ => Raised ValueError
  end.

(** [l.reshape((h, w))] for a one-dimensional [l]. *)
Definition reshape2 (l : list Z) (h w : Z) : result ndarray :=
  if Z.of_nat (List.length l) =? h * w
  then Ok (mk_ndarray [h; w] l)
  else Raised ValueError.

Definition saturate_u8 (z : Z) : Z := Z.max 0 (Z.min 255 z).

Fixpoint zip_with (f : Z -> Z -> Z) (l1 l2 : list Z) : list Z :=
  match l1, l2 with
  | x :: l1', y :: l2' => f x y :: zip_with f l1' l2'
  | _, _ => []
  end.

(** OpenCV sees a numpy array as a matrix of rows, columns and channels: an
    array of two axes has one channel, and the third axis of an array of
    three axes is its channels when there are at most 512 of them.  The
    shapes (2, 2) and (2, 2, 1) are the same matrix. *)
Definition CV_CN_MAX : Z := 512.

Definition mat_geometry (sh : list Z) : option (Z * Z * Z) :=
  match sh with
  | [h; w] => Some (h, w, 1)
  | [h; w; c] =>
      if (1 <=? c) && (c <=? CV_CN_MAX) then Some (h, w, c) else None
  | _ => None
  end.

Definition geometry_eqb (g1 g2 : Z * Z * Z) : bool :=
  let '(h1, w1, c1) := g1 in
  let '(h2, w2, c2) := g2 in
  (h1 =? h2) && (w1 =? w2) && (c1 =? c2).

Definition mat_empty (g : Z * Z * Z) : bool :=
  let '(h, w, _) := g in h * w =? 0.

(** The shape of the array made from a matrix. *)
Definition mat_shape (g : Z * Z * Z) : list Z :=
  let '(h, w, c) := g in if c =? 1 then [h; w] else [h; w; c].

(** What [cv2.subtract] does with the operands that the definition below
    does not settle (an operand of one axis, of more than three, or with more
    than 512 entries on the third; two empty operands of different geometry)
    depends on the release of OpenCV and is left open: whether such a pair is
    accepted is decided by the two shapes, and an accepted pair yields some
    value, an array or [None]. *)
Class opencv : Type := {
  subtract_accepts : list Z -> list Z -> bool;
  subtract_value : ndarray -> ndarray -> option ndarray
}.

(** An OpenCV that rejects every pair left open. *)
Definition strict_opencv : opencv :=
  {| subtract_accepts := fun _ _ => false;
     subtract_value := fun _ _ => None |}.

Section OpenCV.

Context {cv : opencv}.

Definition subtract_other (a b : ndarray) : result (option ndarray) :=
  if subtract_accepts (shape a) (shape b)
  then Ok (subtract_value a b)
  else Raised Cv2Error.

(** [cv2.subtract(a, b)] on uint8 arrays.  Two operands of the same geometry
    yield the per-element difference saturated to [0, 255], or [None] when
    they are empty; operands of different geometry, not both empty, are
    rejected with [cv2.error]. *)
Definition cv2_subtract (a b : ndarray) : result (option ndarray) :=
  match mat_geometry (shape a), mat_geometry (shape b) with
  | Some g1, Some g2 =>
      if geometry_eqb g1 g2 then
        if mat_empty g1 then Ok None
        else Ok (Some (mk_ndarray (mat_shape g1)
                         (zip_with (fun x y => saturate_u8 (x - y))
                            (data a) (data b))))
      else if mat_empty g1 && mat_empty g2 then subtract_other a b
      else Raised Cv2Error
  | _, _ => subtract_other a b
  end.

(** [cv2.cvtColor(a, cv2.COLOR_GRAY2RGB)]: a non-empty single-channel image
    becomes a three-channel image, each intensity repeated three times. *)
Definition gray2rgb (h w : Z) (l : list Z) : result ndarray :=
  match l with
  | [] => Raised Cv2Error
  | _ => Ok (mk_ndarray [h; w; 3] (flat_map (fun p => [p; p; p]) l))
  end.

Definition cv2_cvtColor_GRAY2RGB (a : ndarray) : result ndarray :=
  match shape a with
  | [h; w] => gray2rgb h w (data a)
  | [h; w; 1] => gray2rgb h w (data a)
  | _ => Raised Cv2Error
  end.

(** [a ** 2] on a uint8 array stays uint8: each square is reduced mod 256. *)
Definition ndarray_pow2 (a : ndarray) : ndarray :=
  mk_ndarray (shape a) (map (fun d => (d * d) mod 256) (data a)).

(** [v ** 2] for what [cv2.subtract] returned: [None ** 2] is a TypeError. *)
Definition py_pow2 (v : option ndarray) : result ndarray :=
  match v with
  | Some a => Ok (ndarray_pow2 a)
  | None => Raised TypeError
  end.

(** [np.sum] of a uint8 array accumulates in the platform's unsigned
    integer, 64 bits wide. *)
Definition np_sum (a : ndarray) : Z :=
  fold_right Z.add 0 (data a) mod 2 ^ 64.

(** ** Floating-point values *)

Inductive pyfloat : Type :=
| Fnan
| Finf
| Ffin (q : Q).

(** numpy's [err / float(n)] for an unsigned [err] and [n >= 0]: division by
    zero yields nan or inf (with a warning), never an exception. *)
Definition true_divide (err n : Z) : pyfloat :=
  if n =? 0 then (if err =? 0 then Fnan else Finf)
  else Ffin (Qmake err (Z.to_pos n)).

(** [x != 0]. *)
Definition float_ne0 (x : pyfloat) : bool :=
  match x with
  | Fnan | Finf => true
  | Ffin q => negb (Qnum q =? 0)
  end.

(** ** The state of [run] and its effects *)

(** Calls to the external collaborators, oldest first. *)
Inductive event : Type :=
| Detect (input_tensor : ndarray)          (* detector.detect, line 79 *)
| PrintData (fps : Q).                     (* utils.print_data, line 100 *)

(** The locals of [run] that the loop reads and writes.  [mse] is [None]
    while the local is unbound. *)
Record state : Type := mk_state {
  counter : Z;
  fps : Q;
  start_time : Q;
  img_list : list ndarray;
  mse : option pyfloat;
  trace : list event
}.

(** A computation returns or raises, and leaves a state either way. *)
Definition M (A : Type) : Type := state -> result A * state.

Definition ret {A : Type} (a : A) : M A := fun s => (Ok a, s).

Definition raise {A : Type} (e : exn) : M A := fun s => (Raised e, s).

Definition bind {A B : Type} (m : M A) (k : A -> M B) : M B :=
  fun s =>
    match m s with
    | (Ok a, s') => k a s'
    | (Raised e, s') => (Raised e, s')
    end.

Notation "x <- m ;; k" := (bind m (fun x => k))
  (at level 61, m at next level, right associativity).
Notation "m ;; k" := (bind m (fun _ => k))
  (at level 61, right associativity).

Definition lift {A : Type} (r : result A) : M A := fun s => (r, s).

Definition gets {A : Type} (f : state -> A) : M A := fun s => (Ok (f s), s).

Definition modify (f : state -> state) : M unit := fun s => (Ok tt, f s).

Definition set_counter (c : Z) (s : state) : state :=
  mk_state c (fps s) (start_time s) (img_list s) (mse s) (trace s).
Definition set_fps (f : Q) (s : state) : state :=
  mk_state (counter s) f (start_time s) (img_list s) (mse s) (trace s).
Definition set_start_time (t : Q) (s : state) : state :=
  mk_state (counter s) (fps s) t (img_list s) (mse s) (trace s).
Definition set_img_list (l : list ndarray) (s : state) : state :=
  mk_state (counter s) (fps s) (start_time s) l (mse s) (trace s).
Definition set_mse (m : pyfloat) (s : state) : state :=
  mk_state (counter s) (fps s) (start_time s) (img_list s) (Some m) (trace s).
Definition emit (e : event) (s : state) : state :=
  mk_state (counter s) (fps s) (start_time s) (img_list s) (mse s)
           (trace s ++ [e]).

(** [l[i]] *)
Definition index (l : list ndarray) (i : nat) : M ndarray :=
  match nth_error l i with
  | Some a => ret a
  | None => raise IndexError
  end.

(** [img_list.pop(0)] *)
Definition pop0 : M unit :=
  l <- gets img_list ;;
  match l with
  | [] => raise IndexError
  | _ :: l' => modify (set_img_list l')
  end.

(** Reading the local [mse]. *)
Definition load_mse : M pyfloat :=
  m <- gets mse ;;
  match m with
  | Some x => ret x
  | None => raise (UnboundLocalError "mse")
  end.

(** [n / d] on Python floats. *)
Definition py_div (n d : Q) : M Q :=
  if Qnum d =? 0 then raise ZeroDivisionError else ret (n / d)%Q.

(** ** The loop of [run] *)

Definition lowresSize : Z * Z := (320, 240).
Definition fps_avg_frame_count : Z := 10.

(** What the environment hands to one cycle: the camera buffer, and the two
    clock readings of lines 86 and 88 (consulted only if those lines run). *)
Record cycle_input : Type := mk_input {
  buffer : list Z;
  now_end : Q;
  now_start : Q
}.

(** Lines 28-29 and 58. *)
Definition init_state (now : Q) : state :=
  mk_state 0 0%Q now [] None [].

(** The bodies of [get_mse] and of the loop read globals ([cv2], [np],
    [vision], [get_mse], [time], [utils]); they are written once over a
    namespace [G] and then taken in the namespace of the module. *)
Section Namespace.

Variable G : list string.

(** [get_mse] (lines 144-149). *)
Definition get_mse_in (img1 img2 : ndarray) : result pyfloat :=
  let? hw := unpack2 (shape img1) in                                  (* 145 *)
  let? _ := load_global G "cv2" in
  let? diff := cv2_subtract img1 img2 in                              (* 146 *)
  let? _ := load_global G "np" in
  let? sq := py_pow2 diff in
  let err := np_sum sq in                                             (* 147 *)
  Ok (true_divide err (fst hw * snd hw)).                             (* 148 *)

(** Lines 61-70: capture, count, convert. *)
Definition acquire (stride : nat) (inp : cycle_input) : M ndarray :=
  let n := Z.of_nat stride * snd lowresSize in
  image <- lift (reshape2 (firstn (Z.to_nat n) (buffer inp))
                          (snd lowresSize) (Z.of_nat stride)) ;;      (* 62 *)
  c <- gets counter ;;
  modify (set_counter (c + 1)) ;;                                     (* 64 *)
  lift (load_global G "cv2") ;;
  rgb_image <- lift (cv2_cvtColor_GRAY2RGB image) ;;                  (* 67 *)
  lift (load_global G "vision") ;;                                    (* 70 *)
  ret rgb_image.

(** Lines 72-75: the frame history and the score. *)
Definition gate (rgb_image : ndarray) : M unit :=
  l <- gets img_list ;;
  modify (set_img_list (l ++ [rgb_image])) ;;                         (* 72 *)
  l <- gets img_list ;;
  if (1 <? Z.of_nat (List.length l)) then                             (* 73 *)
    lift (load_global G "get_mse") ;;
    a <- index l 0 ;;
    b <- index l 1 ;;
    m <- lift (get_mse_in a b) ;;
    modify (set_mse m) ;;                                             (* 74 *)
    pop0                                                              (* 75 *)
  else ret tt.

(** Lines 85-88: the fps refresh. *)
Definition refresh_fps (inp : cycle_input) : M unit :=
  c <- gets counter ;;
  if c mod fps_avg_frame_count =? 0 then                              (* 85 *)
    lift (load_global G "time") ;;
    let end_time := now_end inp in                                    (* 86 *)
    t0 <- gets start_time ;;
    f <- py_div (inject_Z fps_avg_frame_count) (end_time - t0)%Q ;;
    modify (set_fps f) ;;                                             (* 87 *)
    lift (load_global G "time") ;;
    modify (set_start_time (now_start inp))                           (* 88 *)
  else ret tt.

(** Lines 77-100: detection, fps and emission behind the test [mse != 0]. *)
Definition report (inp : cycle_input) (rgb_image : ndarray) : M unit :=
  m <- load_mse ;;
  if float_ne0 m then                                                 (* 77 *)
    modify (emit (Detect rgb_image)) ;;                               (* 79 *)
    refresh_fps inp ;;
    lift (load_global G "utils") ;;
    f <- gets fps ;;
    modify (emit (PrintData f))                                       (* 100 *)
  else ret tt.

(** Lines 61-75: the cycle up to the test of line 77. *)
Definition observe (stride : nat) (inp : cycle_input) : M ndarray :=
  rgb_image <- acquire stride inp ;;
  gate rgb_image ;;
  ret rgb_image.

(** One iteration of [while True] (lines 61-100). *)
Definition cycle (stride : nat) (inp : cycle_input) : M unit :=
  rgb_image <- observe stride inp ;;
  report inp rgb_image.

(** The loop over the frames the camera delivers; an exception leaves it. *)
Fixpoint loop (stride : nat) (inps : list cycle_input) : M unit :=
  match inps with
  | [] => ret tt
  | inp :: rest => cycle stride inp ;; loop stride rest
  end.

(** [run], from line 28 on, with the camera's stride, the clock reading of
    line 29 and the inputs of the cycles. *)
Definition run_in (stride : nat) (now : Q) (inps : list cycle_input)
  : result unit * state :=
  (lift (load_global G "time") ;;                                     (* 29 *)
   lift (load_global G "Picamera2") ;;                                (* 32 *)
   lift (load_global G "core") ;;                                     (* 50 *)
   lift (load_global G "processor") ;;                                (* 52 *)
   lift (load_global G "vision") ;;                                   (* 54 *)
   loop stride inps) (init_state now).

End Namespace.

(** The functions of the module: the bodies in its own namespace. *)
Definition get_mse : ndarray -> ndarray -> result pyfloat :=
  get_mse_in module_names.

Definition run : nat -> Q -> list cycle_input -> result unit * state :=
  run_in module_names.

(** The namespace of a module that also has [import numpy as np]. *)
Definition numpy_names : list string := "np" :: module_names.

(** A frame as line 67 produces it from [h] rows of [w] intensities. *)
Definition rgb_frame (h w : Z) (l : list Z) : ndarray :=
  mk_ndarray [h; w; 3] (flat_map (fun p => [p; p; p]) l).

(** A single-channel frame of [h] rows and [w] columns. *)
Definition gray_frame (h w : Z) (l : list Z) : ndarray :=
  mk_ndarray [h; w] l.

(** The mean squared error of two frames of [h] rows and [w] columns, as the
    name of [get_mse] has it: the squared differences, summed in the
    integers, over [h * w]. *)
Definition sum_sq_diff (l1 l2 : list Z) : Z :=
  fold_right Z.add 0 (zip_with (fun x y => (x - y) * (x - y)) l1 l2).

Definition mean_squared_error (h w : Z) (l1 l2 : list Z) : pyfloat :=
  true_divide (sum_sq_diff l1 l2) (h * w).

(** ** The statements of the gate as the design document words them *)

(** The decision is BLOCK: lines 61-75 ran, and either the history held no
    earlier frame (no score is computable) or the score tested is zero. *)
Definition decision_is_block (G : list string) (stride : nat)
  (inp : cycle_input) (s : state) : Prop :=
  exists rgb s1,
    observe G stride inp s = (Ok rgb, s1) /\
    (img_list s = [] \/ exists m, mse s1 = Some m /\ float_ne0 m = false).

(** A cycle that goes straight to the next capture and leaves the trace and
    the fps state (counter, fps, window start) as they were. *)
Definition cycle_is_silent (G : list string) (stride : nat)
  (inp : cycle_input) (s : state) : Prop :=
  exists s',
    cycle G stride inp s = (Ok tt, s') /\
    trace s' = trace s /\ counter s' = counter s /\
    fps s' = fps s /\ start_time s' = start_time s.



(** A black 320x240 YUV420 buffer: 240 rows of stride 320, then the chroma
    planes. *)
Definition black_buffer : list Z := repeat 0 (Z.to_nat 115200).

Definition black_input : cycle_input := mk_input black_buffer 1%Q 1%Q.

(** * Properties *)

(** ** Unfolding the monad *)

Ltac unfold_m :=
  unfold index, pop0, load_mse, py_div in *;
  unfold bind, lift, gets, modify, ret, raise in *.

Ltac inv_pair :=
  repeat match goal with
         | H : (_, _) = (_, _) |- _ => inversion H; clear H; subst
         end.

(** ** [get_mse] *)

Lemma np_is_unbound : bound module_names "np" = false.
Proof. reflexivity. Qed.

Lemma unpack2_raises (sh : list Z) (e : exn) :
  unpack2 sh = Raised e -> e = ValueError.
Proof.
  destruct sh as [|h [|w [|c sh]]]; simpl; intros H; inversion H; reflexivity.
Qed.

Lemma subtract_other_raises (a b : ndarray) (e : exn) :
  subtract_other a b = Raised e -> e = Cv2Error.
Proof.
  unfold subtract_other. destruct (subtract_accepts _ _); intros H;
    inversion H; reflexivity.
Qed.

(** [cv2.subtract] raises nothing but [cv2.error]. *)
Lemma cv2_subtract_raises (a b : ndarray) (e : exn) :
  cv2_subtract a b = Raised e -> e = Cv2Error.
Proof.
  unfold cv2_subtract.
  destruct (mat_geometry (shape a)) as [g1|];
    [|apply subtract_other_raises].
  destruct (mat_geometry (shape b)) as [g2|];
    [|apply subtract_other_raises].
  destruct (geometry_eqb g1 g2).
  - destruct (mat_empty g1); discriminate.
  - destruct (mat_empty g1 && mat_empty g2);
      [apply subtract_other_raises|].
    intros H. inversion H. reflexivity.
Qed.

(** Whether [cv2.subtract] accepts its operands is decided by their
    shapes. *)
Lemma cv2_subtract_by_shapes (a b a' b' : ndarray) :
  shape a = shape a' -> shape b = shape b' ->
  (exists v, cv2_subtract a b = Ok v) ->
  exists v', cv2_subtract a' b' = Ok v'.
Proof.
  intros Ha Hb. unfold cv2_subtract, subtract_other. rewrite <- Ha, <- Hb.
  destruct (mat_geometry (shape a)) as [g1|];
    [destruct (mat_geometry (shape b)) as [g2|]|].
  - destruct (geometry_eqb g1 g2).
    + destruct (mat_empty g1); eauto.
    + destruct (mat_empty g1 && mat_empty g2).
      * destruct (subtract_accepts _ _); eauto.
      * intros [v H]. discriminate H.
  - destruct (subtract_accepts _ _); eauto.
  - destruct (subtract_accepts _ _); eauto.
Qed.

(** Two single-channel frames of the same non-empty geometry. *)
Lemma cv2_subtract_gray (h w : Z) (l1 l2 : list Z) :
  h * w <> 0 ->
  cv2_subtract (gray_frame h w l1) (gray_frame h w l2) =
    Ok (Some (mk_ndarray [h; w]
                (zip_with (fun x y => saturate_u8 (x - y)) l1 l2))).
Proof.
  intros Hn. unfold cv2_subtract, gray_frame.
  cbn [shape data mat_geometry geometry_eqb mat_empty mat_shape].
  rewrite !Z.eqb_refl. cbn [andb].
  destruct (h * w =? 0) eqn:E; [apply Z.eqb_eq in E; contradiction|].
  reflexivity.
Qed.

(** A frame of two axes against a non-empty three-channel frame: one channel
    is not three. *)
Lemma cv2_subtract_against_rgb (a : ndarray) (h' w' h w : Z) (l : list Z) :
  shape a = [h'; w'] ->
  h * w <> 0 ->
  cv2_subtract a (rgb_frame h w l) = Raised Cv2Error.
Proof.
  intros Ha Hn. unfold cv2_subtract, rgb_frame. rewrite Ha.
  cbn [shape mat_geometry]. change ((1 <=? 3) && (3 <=? CV_CN_MAX)) with true.
  cbn iota. cbn [geometry_eqb mat_empty].
  change (1 =? 3) with false. rewrite andb_false_r.
  destruct (h * w =? 0) eqn:E; [apply Z.eqb_eq in E; contradiction|].
  rewrite andb_false_r. reflexivity.
Qed.

(** Which exception [get_mse] raises, in the order of its lines. *)
Lemma get_mse_cases (img1 img2 : ndarray) :
  get_mse img1 img2 =
    match unpack2 (shape img1) with
    | Raised _ => Raised ValueError
    | Ok _ =>
        match cv2_subtract img1 img2 with
        | Raised _ => Raised Cv2Error
        | Ok _ => Raised (NameError "np")
        end
    end.
Proof.
  unfold get_mse, get_mse_in.
  destruct (unpack2 (shape img1)) as [hw|e] eqn:U.
  - change (load_global module_names "cv2") with (Ok tt). cbn [rbind].
    destruct (cv2_subtract img1 img2) as [d|e] eqn:S; cbn [rbind].
    + reflexivity.
    + apply cv2_subtract_raises in S. subst e. reflexivity.
  - apply unpack2_raises in U. subst e. reflexivity.
Qed.

Lemma get_mse_raises (img1 img2 : ndarray) :
  exists e, get_mse img1 img2 = Raised e /\
            (e = ValueError \/ e = Cv2Error \/ e = NameError "np").
Proof.
  rewrite get_mse_cases.
  destruct (unpack2 (shape img1)); [destruct (cv2_subtract img1 img2)|]; eauto.
Qed.

(** A three-channel frame fails at line 145 in every namespace. *)
Lemma get_mse_in_rgb (G : list string) (h w : Z) (l : list Z) (img2 : ndarray) :
  get_mse_in G (rgb_frame h w l) img2 = Raised ValueError.
Proof. reflexivity. Qed.

(** ** The blocks of the loop *)

Lemma acquire_ok (G : list string) (stride : nat) (inp : cycle_input)
  (s s' : state) (rgb : ndarray) :
  acquire G stride inp s = (Ok rgb, s') ->
  s' = set_counter (counter s + 1) s /\
  exists l, rgb = rgb_frame 240 (Z.of_nat stride) l.
Proof.
  unfold acquire, reshape2. unfold_m.
  destruct (_ =? _); [|discriminate].
  destruct (load_global G "cv2"); [|discriminate].
  unfold cv2_cvtColor_GRAY2RGB, gray2rgb. cbn [shape data snd lowresSize].
  destruct (firstn _ _) as [|p l]; [discriminate|].
  destruct (load_global G "vision"); [|discriminate].
  intros H. inv_pair. split; [reflexivity|]. exists (p :: l). reflexivity.
Qed.

Lemma acquire_state (G : list string) (stride : nat) (inp : cycle_input)
  (s s' : state) (r : result ndarray) :
  acquire G stride inp s = (r, s') ->
  s' = s \/ s' = set_counter (counter s + 1) s.
Proof.
  unfold acquire, reshape2. unfold_m.
  destruct (_ =? _); [|intros; inv_pair; auto].
  destruct (load_global G "cv2"); [|intros; inv_pair; auto].
  destruct (cv2_cvtColor_GRAY2RGB _); [|intros; inv_pair; auto].
  destruct (load_global G "vision"); intros; inv_pair; auto.
Qed.

(** A buffer that covers 240 rows of a positive stride is accepted. *)
Lemma acquire_module_names (stride : nat) (inp : cycle_input) (s : state) :
  (0 < stride)%nat ->
  240 * Z.of_nat stride <= Z.of_nat (List.length (buffer inp)) ->
  acquire module_names stride inp s =
    (Ok (rgb_frame 240 (Z.of_nat stride)
           (firstn (Z.to_nat (Z.of_nat stride * 240)) (buffer inp))),
     set_counter (counter s + 1) s).
Proof.
  intros Hs Hb. unfold acquire, reshape2. unfold_m.
  cbn [snd lowresSize].
  assert (L : List.length (firstn (Z.to_nat (Z.of_nat stride * 240)) (buffer inp))
              = Z.to_nat (Z.of_nat stride * 240)).
  { apply firstn_length_le. lia. }
  rewrite L.
  replace (Z.of_nat (Z.to_nat (Z.of_nat stride * 240)) =? 240 * Z.of_nat stride)
    with true by (symmetry; apply Z.eqb_eq; lia).
  change (load_global module_names "cv2") with (Ok tt).
  change (load_global module_names "vision") with (Ok tt).
  unfold cv2_cvtColor_GRAY2RGB, gray2rgb. cbn [shape data].
  destruct (firstn _ _) as [|p l] eqn:F.
  - simpl in L. lia.
  - reflexivity.
Qed.

Lemma gate_first (G : list string) (rgb : ndarray) (s : state) :
  img_list s = [] -> gate G rgb s = (Ok tt, set_img_list [rgb] s).
Proof.
  intros H. unfold gate. unfold_m. rewrite H. reflexivity.
Qed.

(** With an earlier frame in the history the gate compares the two oldest
    entries; whatever [get_mse] raises leaves the appended list behind. *)
Lemma gate_next (G : list string) (rgb a : ndarray) (l : list ndarray)
  (s : state) :
  img_list s = a :: l ->
  bound G "get_mse" = true ->
  gate G rgb s =
    match get_mse_in G a (hd rgb (l ++ [rgb])) with
    | Ok m => (Ok tt, set_img_list (l ++ [rgb])
                        (set_mse m (set_img_list (a :: l ++ [rgb]) s)))
    | Raised e => (Raised e, set_img_list (a :: l ++ [rgb]) s)
    end.
Proof.
  intros H HG. unfold gate, load_global. unfold_m. rewrite H, HG.
  cbn [img_list set_img_list app List.length].
  replace (1 <? Z.of_nat (S (List.length (l ++ [rgb])))) with true.
  2:{ symmetry. apply Z.ltb_lt. rewrite length_app. simpl. lia. }
  cbn [nth_error].
  destruct l as [|b l]; cbn [app nth_error hd];
    destruct (get_mse_in G a _); reflexivity.
Qed.

Lemma gate_frame (G : list string) (rgb : ndarray) (s s' : state)
  (r : result unit) :
  gate G rgb s = (r, s') ->
  counter s' = counter s /\ fps s' = fps s /\ start_time s' = start_time s /\
  trace s' = trace s.
Proof.
  unfold gate. unfold_m. cbn [img_list set_img_list].
  destruct (1 <? _); [|intros; inv_pair; auto].
  destruct (load_global G "get_mse"); [|intros; inv_pair; auto].
  destruct (nth_error _ 0); [|intros; inv_pair; auto].
  destruct (nth_error _ 1); [|intros; inv_pair; auto].
  destruct (get_mse_in G _ _); [|intros; inv_pair; auto].
  cbn [img_list set_mse set_img_list].
  destruct (img_list s ++ [rgb]); intros; inv_pair; auto.
Qed.

Lemma gate_length (G : list string) (rgb : ndarray) (s s' : state)
  (r : result unit) :
  gate G rgb s = (r, s') ->
  (List.length (img_list s') <= List.length (img_list s) + 1)%nat /\
  (r = Ok tt ->
   (List.length (img_list s') <= Nat.max 1 (List.length (img_list s)))%nat).
Proof.
  unfold gate. unfold_m. cbn [img_list set_img_list].
  assert (L : List.length (img_list s ++ [rgb]) = (List.length (img_list s) + 1)%nat).
  { rewrite length_app. reflexivity. }
  destruct (1 <? _) eqn:T.
  - destruct (load_global G "get_mse");
      [|intros; inv_pair; cbn [img_list set_img_list]; split; [lia|discriminate]].
    destruct (nth_error _ 0);
      [|intros; inv_pair; cbn [img_list set_img_list]; split; [lia|discriminate]].
    destruct (nth_error _ 1);
      [|intros; inv_pair; cbn [img_list set_img_list]; split; [lia|discriminate]].
    destruct (get_mse_in G _ _);
      [|intros; inv_pair; cbn [img_list set_img_list]; split; [lia|discriminate]].
    cbn [img_list set_mse set_img_list].
    destruct (img_list s ++ [rgb]) as [|x t] eqn:E.
    + intros; inv_pair. cbn [img_list set_img_list set_mse].
      split; [simpl; lia|discriminate].
    + intros; inv_pair. cbn [img_list set_img_list]. simpl in L. split; lia.
  - intros; inv_pair. cbn [img_list set_img_list].
    apply Z.ltb_ge in T. split; lia.
Qed.

Lemma report_unbound (G : list string) (inp : cycle_input) (rgb : ndarray)
  (s : state) :
  mse s = None -> report G inp rgb s = (Raised (UnboundLocalError "mse"), s).
Proof. intros H. unfold report. unfold_m. rewrite H. reflexivity. Qed.

Lemma report_block (G : list string) (inp : cycle_input) (rgb : ndarray)
  (s : state) (m : pyfloat) :
  mse s = Some m -> float_ne0 m = false -> report G inp rgb s = (Ok tt, s).
Proof. intros H Z0. unfold report. unfold_m. rewrite H, Z0. reflexivity. Qed.

Lemma refresh_fps_frame (G : list string) (inp : cycle_input) (s s' : state)
  (r : result unit) :
  refresh_fps G inp s = (r, s') ->
  img_list s' = img_list s /\ counter s' = counter s /\ mse s' = mse s /\
  trace s' = trace s.
Proof.
  unfold refresh_fps. unfold_m.
  destruct (_ =? 0); [|intros; inv_pair; auto].
  destruct (load_global G "time"); [|intros; inv_pair; auto].
  destruct (Qnum _ =? 0); intros; inv_pair; auto.
Qed.

Lemma report_frame (G : list string) (inp : cycle_input) (rgb : ndarray)
  (s s' : state) (r : result unit) :
  report G inp rgb s = (r, s') ->
  img_list s' = img_list s /\ counter s' = counter s /\ mse s' = mse s.
Proof.
  unfold report. unfold bind at 1. unfold load_mse. unfold_m.
  destruct (mse s) as [m|] eqn:Em; [|intros; inv_pair; auto].
  destruct (float_ne0 m); [|intros; inv_pair; auto].
  destruct (refresh_fps G inp (emit (Detect rgb) s)) as [[u|e] s1] eqn:R;
    apply refresh_fps_frame in R; cbn [emit img_list counter mse] in R;
    destruct R as (R1 & R2 & R3 & _).
  - destruct (load_global G "utils"); intros; inv_pair;
      cbn [emit img_list counter mse]; repeat split; congruence.
  - intros; inv_pair; repeat split; congruence.
Qed.

Lemma observe_ok (G : list string) (stride : nat) (inp : cycle_input)
  (s s1 : state) (rgb : ndarray) :
  observe G stride inp s = (Ok rgb, s1) ->
  counter s1 = counter s + 1 /\ fps s1 = fps s /\
  start_time s1 = start_time s /\ trace s1 = trace s /\
  exists l, rgb = rgb_frame 240 (Z.of_nat stride) l.
Proof.
  unfold observe. unfold bind at 1.
  destruct (acquire G stride inp s) as [[rgb0|e] s0] eqn:A; [|discriminate].
  apply acquire_ok in A. destruct A as [-> [l ->]].
  unfold bind.
  destruct (gate G _ _) as [[u|e] s2] eqn:Gt; [|discriminate].
  apply gate_frame in Gt. cbn [set_counter counter fps start_time trace] in Gt.
  unfold ret. intros H. inv_pair. intuition eauto.
Qed.

(** Lines 61-75 cannot complete once the history holds a frame: the frame of
    line 67 has three axes, and [get_mse] unpacks two. *)
Lemma observe_history_raises (stride : nat) (inp : cycle_input) (s : state) :
  img_list s <> [] ->
  exists e s', observe module_names stride inp s = (Raised e, s').
Proof.
  intros Hne. unfold observe. unfold bind at 1.
  destruct (acquire module_names stride inp s) as [[rgb|e] s0] eqn:A;
    [|eauto].
  apply acquire_ok in A. destruct A as [-> _].
  destruct (img_list s) as [|a l] eqn:L; [contradiction|].
  unfold bind at 1.
  rewrite (gate_next module_names rgb a l) by (auto; reflexivity).
  fold (get_mse a (hd rgb (l ++ [rgb]))).
  destruct (get_mse_raises a (hd rgb (l ++ [rgb]))) as [e [-> _]].
  eauto.
Qed.

Lemma cycle_history_raises (stride : nat) (inp : cycle_input) (s : state) :
  img_list s <> [] ->
  exists e s', cycle module_names stride inp s = (Raised e, s').
Proof.
  intros Hne. destruct (observe_history_raises stride inp s Hne) as (e & s' & H).
  unfold cycle, bind. rewrite H. eauto.
Qed.

(** The first cycle: the history is empty and [mse] was never assigned. *)
Lemma cycle_first_frame (stride : nat) (inp : cycle_input) (s : state) :
  img_list s = [] -> mse s = None ->
  (0 < stride)%nat ->
  240 * Z.of_nat stride <= Z.of_nat (List.length (buffer inp)) ->
  cycle module_names stride inp s =
    (Raised (UnboundLocalError "mse"),
     set_img_list
       [rgb_frame 240 (Z.of_nat stride)
          (firstn (Z.to_nat (Z.of_nat stride * 240)) (buffer inp))]
       (set_counter (counter s + 1) s)).
Proof.
  intros Hl Hm Hs Hb. unfold cycle, observe.
  unfold bind. rewrite (acquire_module_names stride inp s Hs Hb).
  rewrite gate_first by exact Hl. unfold ret.
  rewrite report_unbound by exact Hm. reflexivity.
Qed.

Lemma cycle_unbound_raises (G : list string) (stride : nat) (inp : cycle_input)
  (s : state) :
  img_list s = [] -> mse s = None ->
  exists e s', cycle G stride inp s = (Raised e, s') /\ trace s' = trace s.
Proof.
  intros Hl Hm. unfold cycle, observe. unfold bind.
  destruct (acquire G stride inp s) as [[rgb|e] s0] eqn:A.
  - apply acquire_ok in A. destruct A as [-> _].
    rewrite gate_first by exact Hl. unfold ret.
    rewrite report_unbound by exact Hm. eauto.
  - exists e, s0. split; [reflexivity|].
    apply acquire_state in A. destruct A as [->| ->]; reflexivity.
Qed.

(** The loop-head invariant of the history. *)
Lemma cycle_history_length (G : list string) (stride : nat) (inp : cycle_input)
  (s s' : state) (r : result unit) :
  (List.length (img_list s) <= 1)%nat ->
  cycle G stride inp s = (r, s') ->
  (List.length (img_list s') <= 2)%nat /\
  (r = Ok tt -> (List.length (img_list s') <= 1)%nat).
Proof.
  intros Hl. unfold cycle, observe. unfold bind.
  destruct (acquire G stride inp s) as [[rgb|e] s0] eqn:A.
  - apply acquire_ok in A. destruct A as [-> _].
    destruct (gate G rgb _) as [[u|e] s1] eqn:Gt;
      apply gate_length in Gt; cbn [set_counter img_list] in Gt;
      destruct Gt as [G1 G2].
    + destruct u. specialize (G2 eq_refl). unfold ret.
      destruct (report G inp rgb s1) as [r1 s2] eqn:R.
      apply report_frame in R. destruct R as (R1 & _).
      intros H. inv_pair. rewrite R1. split; intros; lia.
    + intros H. inv_pair. split; [lia|discriminate].
  - intros H. inv_pair.
    apply acquire_state in A.
    destruct A as [->| ->]; cbn [set_counter img_list];
      (split; [lia|discriminate]).
Qed.

Lemma loop_history_length (G : list string) (stride : nat)
  (inps : list cycle_input) :
  forall s, (List.length (img_list s) <= 1)%nat ->
            (List.length (img_list (snd (loop G stride inps s))) <= 2)%nat.
Proof.
  induction inps as [|inp rest IH]; intros s Hl.
  - simpl. lia.
  - cbn [loop]. unfold bind.
    destruct (cycle G stride inp s) as [[u|e] s1] eqn:C;
      apply (cycle_history_length G stride inp s _ _ Hl) in C;
      destruct C as [C1 C2].
    + apply IH. apply C2. destruct u. reflexivity.
    + exact C1.
Qed.

Lemma run_in_state (G : list string) (stride : nat) (now : Q)
  (inps : list cycle_input) :
  run_in G stride now inps = loop G stride inps (init_state now) \/
  exists e, run_in G stride now inps = (Raised e, init_state now).
Proof.
  unfold run_in. unfold bind, lift.
  repeat match goal with
         | |- context [load_global G ?x] =>
             destruct (load_global G x); [|right; eauto]
         end.
  left. reflexivity.
Qed.

Lemma run_is_loop (stride : nat) (now : Q) (inps : list cycle_input) :
  run stride now inps = loop module_names stride inps (init_state now).
Proof. reflexivity. Qed.

(** With numpy bound and single-channel frames, a frame compared with itself
    scores zero: what keeps the loop from this is the binding of [np] and the
    three-channel shape, not the arithmetic. *)
Lemma zip_sub_self (l : list Z) :
  fold_right Z.add 0
    (map (fun d => (d * d) mod 256)
       (zip_with (fun x y => saturate_u8 (x - y)) l l)) = 0.
Proof.
  induction l as [|x l IH]; [reflexivity|].
  cbn [zip_with map fold_right]. rewrite IH, Z.sub_diag. reflexivity.
Qed.

Lemma get_mse_numpy_same_frame (h w : Z) (l : list Z) :
  h * w <> 0 ->
  get_mse_in numpy_names (gray_frame h w l) (gray_frame h w l)
  = Ok (Ffin (Qmake 0 (Z.to_pos (h * w)))).
Proof.
  intros Hn. unfold get_mse_in.
  rewrite (cv2_subtract_gray h w l l Hn).
  change (load_global numpy_names "cv2") with (Ok tt).
  change (load_global numpy_names "np") with (Ok tt).
  cbn [gray_frame shape unpack2 rbind py_pow2 fst snd].
  unfold np_sum, ndarray_pow2. cbn [data].
  rewrite zip_sub_self. unfold true_divide.
  destruct (h * w =? 0) eqn:E; [apply Z.eqb_eq in E; contradiction|].
  reflexivity.
Qed.

Lemma observe_first_frame (stride : nat) (inp : cycle_input) (s : state) :
  img_list s = [] ->
  (0 < stride)%nat ->
  240 * Z.of_nat stride <= Z.of_nat (List.length (buffer inp)) ->
  let rgb := rgb_frame 240 (Z.of_nat stride)
               (firstn (Z.to_nat (Z.of_nat stride * 240)) (buffer inp)) in
  observe module_names stride inp s =
    (Ok rgb, set_img_list [rgb] (set_counter (counter s + 1) s)).
Proof.
  intros Hl Hs Hb rgb. unfold observe, bind.
  rewrite (acquire_module_names stride inp s Hs Hb).
  rewrite gate_first by exact Hl. reflexivity.
Qed.

Lemma black_buffer_covers :
  240 * Z.of_nat 320 <= Z.of_nat (List.length (buffer black_input)).
Proof.
  unfold black_input, black_buffer. cbn [buffer]. rewrite repeat_length. lia.
Qed.

(** With an earlier frame [a] in the history, the gate of the module raises
    what [get_mse] raises, after the append and before the assignment and
    the pop. *)
Lemma gate_second_frame (a b : ndarray) (s : state) :
  exists e,
    gate module_names b (set_img_list [a] s) = (Raised e, set_img_list [a; b] s)
    /\ get_mse a b = Raised e.
Proof.
  rewrite (gate_next module_names b a []) by reflexivity.
  cbn [app hd]. fold (get_mse a b).
  destruct (get_mse_raises a b) as [e [E _]]. rewrite E.
  exists e. split; reflexivity.
Qed.

Lemma Qnum_minus_zero (a b : Q) : Qnum (a - b)%Q = 0 <-> (a == b)%Q.
Proof.
  unfold Qminus, Qplus, Qopp, Qeq. cbn [Qnum Qden]. split; intros H; lia.
Qed.

(** ** The gate *)

(** C1 (the code departs from it): two frames that differ should score above
    zero and pass.  In the module [get_mse] returns no score for any pair of
    frames, so the gate raises with the new frame appended and nothing else
    changed; for the single-channel frames [[0]] and [[1]] it is the
    NameError of [np].  With numpy bound the same pair scores 0, because
    [cv2.subtract] saturates at 0, and so does [[16]] against [[0]], because
    the square is taken in uint8. *)
Theorem differing_frames_get_no_score :
  (forall (A B : ndarray) (s : state),
      exists e, gate module_names B (set_img_list [A] s)
                = (Raised e, set_img_list [A; B] s)) /\
  get_mse (gray_frame 1 1 [0]) (gray_frame 1 1 [1]) = Raised (NameError "np") /\
  get_mse (rgb_frame 1 1 [0]) (rgb_frame 1 1 [1]) = Raised ValueError /\
  get_mse_in numpy_names (gray_frame 1 1 [0]) (gray_frame 1 1 [1])
  = Ok (Ffin 0) /\
  get_mse_in numpy_names (gray_frame 1 1 [16]) (gray_frame 1 1 [0])
  = Ok (Ffin 0) /\
  float_ne0 (Ffin 0) = false.
Proof.
  split; [|repeat split].
  intros A B s. destruct (gate_second_frame A B s) as [e [H _]]. eauto.
Qed.

(** C2 (the code departs from it): a frame seen twice should score exactly
    zero and be blocked.  In the module the comparison of a frame with itself
    raises like any other: no score is assigned, and the cycle ends in the
    exception instead of a BLOCK decision.  For the frames of line 67 the
    exception is the ValueError of line 145 in every namespace that binds
    [get_mse]. *)
Theorem repeated_frame_gets_no_score :
  (forall (A : ndarray) (s : state),
      exists e, gate module_names A (set_img_list [A] s)
                = (Raised e, set_img_list [A; A] s)) /\
  (forall (G : list string) (h w : Z) (l : list Z) (s : state),
      let A := rgb_frame h w l in
      gate ("get_mse" :: G) A (set_img_list [A] s)
      = (Raised ValueError, set_img_list [A; A] s)) /\
  get_mse (gray_frame 1 1 [7]) (gray_frame 1 1 [7]) = Raised (NameError "np").
Proof.
  split; [|split].
  - intros A s. destruct (gate_second_frame A A s) as [e [H _]]. eauto.
  - intros G h w l s A.
    rewrite (gate_next ("get_mse" :: G) A A []) by reflexivity.
    reflexivity.
  - reflexivity.
Qed.

(** C4 (the code departs from it): the score should be the sum of the squared
    differences over h*w.  For [[16]] against [[0]] that is 256; [get_mse]
    raises NameError, and with numpy bound it returns 0, the square 256
    wrapped to uint8.  For [[0]] against [[1]] the mean squared error is 1
    and the saturated difference gives 0. *)
Theorem get_mse_is_not_the_mean_squared_error :
  get_mse (gray_frame 1 1 [16]) (gray_frame 1 1 [0]) = Raised (NameError "np") /\
  mean_squared_error 1 1 [16] [0] = Ffin 256 /\
  get_mse_in numpy_names (gray_frame 1 1 [16]) (gray_frame 1 1 [0])
  = Ok (Ffin 0) /\
  mean_squared_error 1 1 [0] [1] = Ffin 1 /\
  get_mse_in numpy_names (gray_frame 1 1 [0]) (gray_frame 1 1 [1])
  = Ok (Ffin 0).
Proof. repeat split. Qed.

(** C5 (the code departs from it): the score should be the same in both
    orders.  [get_mse] returns no score in either order; with numpy bound,
    [[1]] against [[0]] scores 1 and [[0]] against [[1]] scores 0. *)
Theorem get_mse_is_not_symmetric :
  get_mse (gray_frame 1 1 [1]) (gray_frame 1 1 [0]) = Raised (NameError "np") /\
  get_mse (gray_frame 1 1 [0]) (gray_frame 1 1 [1]) = Raised (NameError "np") /\
  get_mse_in numpy_names (gray_frame 1 1 [1]) (gray_frame 1 1 [0])
  = Ok (Ffin 1) /\
  get_mse_in numpy_names (gray_frame 1 1 [0]) (gray_frame 1 1 [1])
  = Ok (Ffin 0).
Proof. repeat split. Qed.

(** C6 (the code departs from it): the first frame should be blocked and the
    loop go on.  Whatever the camera delivers, [run] ends in an exception in
    its first cycle, with no call to the detector or the sink; when the
    buffer covers the 240 rows, the exception is the UnboundLocalError of
    [mse] at line 77, with the counter at 1 and the frame in the history. *)
Theorem first_frame_raises_unbound_local :
  (forall (stride : nat) (now : Q) (inp : cycle_input)
          (inps : list cycle_input),
      exists e s', run stride now (inp :: inps) = (Raised e, s') /\
                   trace s' = []) /\
  (forall (stride : nat) (now : Q) (inp : cycle_input)
          (inps : list cycle_input),
      (0 < stride)%nat ->
      240 * Z.of_nat stride <= Z.of_nat (List.length (buffer inp)) ->
      run stride now (inp :: inps)
      = (Raised (UnboundLocalError "mse"),
         mk_state 1 0%Q now
           [rgb_frame 240 (Z.of_nat stride)
              (firstn (Z.to_nat (Z.of_nat stride * 240)) (buffer inp))]
           None [])).
Proof.
  split.
  - intros stride now inp inps. rewrite run_is_loop. cbn [loop]. unfold bind.
    destruct (cycle_unbound_raises module_names stride inp (init_state now))
      as (e & s' & H & T); [reflexivity|reflexivity|].
    rewrite H. eauto.
  - intros stride now inp inps Hs Hb. rewrite run_is_loop. cbn [loop].
    unfold bind. rewrite cycle_first_frame by (auto; reflexivity).
    reflexivity.
Qed.

(** ** Blocked cycles *)

(** C3 (amended): in every cycle in which the score tested at line 77 is
    zero, the detector is not called, the fps is not refreshed and nothing is
    emitted: the cycle returns to the head of the loop with the trace, [fps]
    and the window start as they were.  The counter is one more than before:
    line 64 counts every captured frame, before the gate. *)
Theorem zero_score_cycle_only_counts :
  forall (G : list string) (stride : nat) (inp : cycle_input)
         (s s1 : state) (rgb : ndarray) (m : pyfloat),
    observe G stride inp s = (Ok rgb, s1) ->
    mse s1 = Some m ->
    float_ne0 m = false ->
    cycle G stride inp s = (Ok tt, s1) /\
    trace s1 = trace s /\ fps s1 = fps s /\ start_time s1 = start_time s /\
    counter s1 = counter s + 1.
Proof.
  intros G stride inp s s1 rgb m Ho Hm Hz.
  destruct (observe_ok G stride inp s s1 rgb Ho) as (Hc & Hf & Ht & Htr & _).
  unfold cycle, bind. rewrite Ho.
  rewrite (report_block G inp rgb s1 m Hm Hz). auto.
Qed.

(** ** The fps estimator *)

Lemma refresh_fps_at_multiple (inp : cycle_input) (s : state) :
  counter s mod 10 = 0 ->
  ~ (now_end inp == start_time s)%Q ->
  refresh_fps module_names inp s
  = (Ok tt,
     set_start_time (now_start inp)
       (set_fps (10 / (now_end inp - start_time s))%Q s)).
Proof.
  intros Hc Ht. unfold refresh_fps, fps_avg_frame_count. unfold_m.
  rewrite Hc. cbn [Z.eqb].
  change (load_global module_names "time") with (Ok tt). cbn iota.
  destruct (Qnum (now_end inp - start_time s) =? 0) eqn:E.
  - apply Z.eqb_eq, Qnum_minus_zero in E. contradiction.
  - reflexivity.
Qed.





(** ** The frame history *)

(** C8: the history never holds more than two frames.  Whatever the
    namespace, the stride and the frames delivered, the list left by [run]
    has at most two entries; a cycle entered with at most one entry leaves at
    most two, and at most one when it completes; the entry removed by line 75
    is the one at index 0, so that a gate that completes on the history [a]
    leaves the new frame alone. *)
Theorem history_never_exceeds_two :
  (forall (G : list string) (stride : nat) (now : Q)
          (inps : list cycle_input),
      (List.length (img_list (snd (run_in G stride now inps))) <= 2)%nat) /\
  (forall (G : list string) (stride : nat) (inp : cycle_input) (s : state),
      (List.length (img_list s) <= 1)%nat ->
      (List.length (img_list (snd (cycle G stride inp s))) <= 2)%nat /\
      (fst (cycle G stride inp s) = Ok tt ->
       (List.length (img_list (snd (cycle G stride inp s))) <= 1)%nat)) /\
  (forall (a : ndarray) (l : list ndarray) (s : state),
      pop0 (set_img_list (a :: l) s) = (Ok tt, set_img_list l s)) /\
  (forall (G : list string) (a rgb : ndarray) (s : state) (m : pyfloat),
      get_mse_in G a rgb = Ok m ->
      gate ("get_mse" :: G) rgb (set_img_list [a] s)
      = (Ok tt, set_mse m (set_img_list [rgb] s))).
Proof.
  split; [|split; [|split]].
  - intros G stride now inps.
    destruct (run_in_state G stride now inps) as [-> | [e ->]].
    + apply loop_history_length. simpl. lia.
    + simpl. lia.
  - intros G stride inp s Hl.
    destruct (cycle G stride inp s) as [r s'] eqn:C.
    apply (cycle_history_length G stride inp s s' r Hl) in C. exact C.
  - reflexivity.
  - intros G a rgb s m Hm.
    rewrite (gate_next ("get_mse" :: G) rgb a []) by reflexivity.
    cbn [app hd].
    assert (E : get_mse_in ("get_mse" :: G) a rgb = get_mse_in G a rgb).
    { unfold get_mse_in, load_global, bound. cbn [existsb String.eqb].
      reflexivity. }
    rewrite E, Hm. reflexivity.
Qed.

(** ** Frames of different geometry *)


(** ** The missing import *)

(** C10: [get_mse] raises for every pair of images.  [np] is not among the
    names of the module; a call that gets as far as line 147 (two axes,
    operands that [cv2.subtract] accepts) raises NameError for [np]; a frame
    produced by lines 61-70 has three axes and fails earlier, at the
    unpacking of line 145, with ValueError; and a cycle entered with a frame
    already in the history never completes. *)
Theorem get_mse_always_raises :
  bound module_names "np" = false /\
  (forall img1 img2 : ndarray,
      exists e, get_mse img1 img2 = Raised e /\
                (e = ValueError \/ e = Cv2Error \/ e = NameError "np")) /\
  (forall (img1 img2 : ndarray) (diff : option ndarray) (h w : Z),
      shape img1 = [h; w] ->
      cv2_subtract img1 img2 = Ok diff ->
      get_mse img1 img2 = Raised (NameError "np")) /\
  (forall (stride : nat) (inp : cycle_input) (s s' : state)
          (rgb img2 : ndarray),
      acquire module_names stride inp s = (Ok rgb, s') ->
      shape rgb = [240; Z.of_nat stride; 3] /\
      get_mse rgb img2 = Raised ValueError) /\
  (forall (stride : nat) (inp : cycle_input) (s : state),
      img_list s <> [] ->
      exists e s', cycle module_names stride inp s = (Raised e, s')).
Proof.
  split; [|split; [|split; [|split]]].
  - exact np_is_unbound.
  - exact get_mse_raises.
  - intros img1 img2 diff h w Hs Hd. rewrite get_mse_cases, Hs, Hd. reflexivity.
  - intros stride inp s s' rgb img2 A. apply acquire_ok in A.
    destruct A as [_ [l ->]]. split; reflexivity.
  - exact cycle_history_raises.
Qed.

(** * Further properties of [get_mse] and of the loop *)

(** ** Helper lemmas *)

(** Compared with a non-empty three-channel frame, an older frame of any
    shape is refused in every namespace: at line 145 unless it has two axes,
    and then at line 146, one channel against three. *)
Lemma get_mse_in_against_rgb (G : list string) (a : ndarray) (h w : Z)
  (l : list Z) :
  h * w <> 0 ->
  exists e, get_mse_in G a (rgb_frame h w l) = Raised e.
Proof.
  intros Hn. unfold get_mse_in.
  destruct (shape a) as [|h' [|w' [|c t]]] eqn:S; cbn [unpack2 rbind]; eauto.
  destruct (load_global G "cv2"); cbn [rbind]; eauto.
  rewrite (cv2_subtract_against_rgb a h' w' h w l S Hn). cbn [rbind]. eauto.
Qed.

(** The gate with one frame in the history, in any namespace. *)
Lemma gate_one_against_rgb (G : list string) (a : ndarray) (h w : Z)
  (l : list Z) (s : state) :
  h * w <> 0 ->
  img_list s = [a] ->
  exists e,
    gate G (rgb_frame h w l) s
    = (Raised e, set_img_list [a; rgb_frame h w l] s).
Proof.
  intros Hn H. unfold gate. unfold_m. rewrite H.
  cbn [img_list set_img_list app List.length Z.of_nat Pos.of_succ_nat
       Pos.succ Z.ltb Z.compare Pos.compare Pos.compare_cont nth_error].
  destruct (load_global G "get_mse"); [|eauto].
  destruct (get_mse_in_against_rgb G a h w l Hn) as [e ->]. eauto.
Qed.

(** A frame that the capture returns has 240 rows of a positive stride. *)
Lemma acquire_ok_stride (G : list string) (stride : nat) (inp : cycle_input)
  (s s' : state) (rgb : ndarray) :
  acquire G stride inp s = (Ok rgb, s') -> 240 * Z.of_nat stride <> 0.
Proof.
  unfold acquire, reshape2. unfold_m. cbn [snd lowresSize].
  destruct (_ =? _) eqn:E; [|discriminate].
  destruct (load_global G "cv2"); [|discriminate].
  unfold cv2_cvtColor_GRAY2RGB, gray2rgb. cbn [shape data].
  destruct (firstn _ _) as [|p l]; [discriminate|].
  intros _. apply Z.eqb_eq in E. cbn [List.length] in E. lia.
Qed.

Lemma firstn_short (n : nat) (l : list Z) :
  (List.length l < n)%nat -> firstn n l = l.
Proof. intros H. apply firstn_all2. lia. Qed.

Lemma firstn_covered (n : nat) (l extra : list Z) :
  (n <= List.length l)%nat -> firstn n (l ++ extra) = firstn n l.
Proof.
  intros H. rewrite firstn_app.
  replace (n - List.length l)%nat with 0%nat by lia.
  cbn [firstn]. apply app_nil_r.
Qed.

(** ** [get_mse] (lines 144-149) *)

(** X1: the outcome of [get_mse] is decided by the shapes of its arguments
    alone; the pixels play no part in it. *)
Theorem get_mse_ignores_pixels :
  forall a b a' b' : ndarray,
    shape a = shape a' -> shape b = shape b' ->
    get_mse a b = get_mse a' b'.
Proof.
  intros a b a' b' Ha Hb. rewrite !get_mse_cases, <- Ha.
  destruct (unpack2 (shape a)); [|reflexivity].
  destruct (cv2_subtract a b) as [v|e] eqn:S;
    destruct (cv2_subtract a' b') as [v'|e'] eqn:S'; try reflexivity.
  - destruct (cv2_subtract_by_shapes a b a' b' Ha Hb) as [v' E]; [eauto|].
    rewrite E in S'. discriminate S'.
  - destruct (cv2_subtract_by_shapes a' b' a b) as [v E]; [auto|auto|eauto|].
    rewrite E in S. discriminate S.
Qed.

(** ** The capture (lines 61-70) *)

(** X2: a buffer shorter than 240 rows of the stride is refused by the
    reshape of line 62, before the counter is touched: the cycle raises
    ValueError and leaves the state exactly as it was, in every namespace,
    and the loop stops there. *)
Theorem short_buffer_raises_before_counting :
  forall (G : list string) (stride : nat) (inp : cycle_input)
         (rest : list cycle_input) (s : state),
    Z.of_nat (List.length (buffer inp)) < 240 * Z.of_nat stride ->
    cycle G stride inp s = (Raised ValueError, s) /\
    loop G stride (inp :: rest) s = (Raised ValueError, s).
Proof.
  intros G stride inp rest s Hb.
  assert (C : cycle G stride inp s = (Raised ValueError, s)).
  { unfold cycle, observe, acquire, reshape2. unfold_m.
    cbn [snd lowresSize].
    rewrite firstn_short by lia.
    replace (Z.of_nat (List.length (buffer inp)) =? 240 * Z.of_nat stride)
      with false by (symmetry; apply Z.eqb_neq; lia).
    reflexivity. }
  split; [exact C|]. cbn [loop]. unfold bind. rewrite C. reflexivity.
Qed.

Lemma acquire_covered (G : list string) (stride : nat) (inp : cycle_input)
  (extra : list Z) (s : state) :
  240 * Z.of_nat stride <= Z.of_nat (List.length (buffer inp)) ->
  acquire G stride
    (mk_input (buffer inp ++ extra) (now_end inp) (now_start inp)) s
  = acquire G stride inp s.
Proof.
  intros Hb. unfold acquire. cbn [buffer snd lowresSize].
  rewrite firstn_covered by lia. reflexivity.
Qed.

(** X3: only the first 240 rows of the buffer are read (line 62).  Whatever
    follows them, the chroma planes of the YUV420 buffer for instance, has no
    influence on the cycle. *)
Theorem bytes_past_the_rows_are_ignored :
  forall (G : list string) (stride : nat) (inp : cycle_input)
         (extra : list Z) (s : state),
    240 * Z.of_nat stride <= Z.of_nat (List.length (buffer inp)) ->
    cycle G stride
      (mk_input (buffer inp ++ extra) (now_end inp) (now_start inp)) s
    = cycle G stride inp s.
Proof.
  intros G stride inp extra s Hb. unfold cycle, observe.
  unfold bind at 1 3. unfold bind at 1 3.
  rewrite (acquire_covered G stride inp extra s Hb).
  reflexivity.
Qed.

(** ** The loop (lines 60-100) *)

(** What a completed cycle tells about the state it started from and the
    state it leaves, when the history held at most one frame. *)
Lemma cycle_ok_inv (G : list string) (stride : nat) (inp : cycle_input)
  (s s' : state) :
  (List.length (img_list s) <= 1)%nat ->
  cycle G stride inp s = (Ok tt, s') ->
  img_list s = [] /\
  (exists l, img_list s' = [rgb_frame 240 (Z.of_nat stride) l]) /\
  mse s' = mse s /\
  counter s' = counter s + 1.
Proof.
  intros Hl. unfold cycle, observe. unfold bind.
  destruct (acquire G stride inp s) as [[rgb|e] s0] eqn:A; [|discriminate].
  assert (Hn := acquire_ok_stride G stride inp s s0 rgb A).
  apply acquire_ok in A. destruct A as [-> [l ->]].
  destruct (img_list s) as [|a [|b t]] eqn:L.
  - rewrite gate_first by exact L. unfold ret.
    destruct (report G inp _ _) as [r s2] eqn:R.
    apply report_frame in R.
    cbn [set_img_list set_counter img_list counter mse] in R.
    destruct R as (R1 & R2 & R3).
    intros H. inv_pair. repeat split; eauto.
  - destruct (gate_one_against_rgb G a 240 (Z.of_nat stride) l
                (set_counter (counter s + 1) s) Hn L) as [e ->].
    discriminate.
  - simpl in Hl. lia.
Qed.

(** X5: a cycle that completes has not computed the score it tested.  In
    every namespace, if the history holds at most one frame and the cycle
    completes, then the history was empty, [mse] is what it was before the
    cycle, the counter has advanced by one and the history holds exactly the
    frame of this cycle. *)
Theorem completed_cycle_tested_a_stale_score :
  forall (G : list string) (stride : nat) (inp : cycle_input) (s s' : state),
    (List.length (img_list s) <= 1)%nat ->
    cycle G stride inp s = (Ok tt, s') ->
    img_list s = [] /\
    mse s' = mse s /\
    counter s' = counter s + 1 /\
    img_list s'
    = [rgb_frame 240 (Z.of_nat stride)
         (firstn (Z.to_nat (Z.of_nat stride * 240)) (buffer inp))].
Proof.
  intros G stride inp s s' Hl C.
  destruct (cycle_ok_inv G stride inp s s' Hl C) as (L & _ & Hm & Hc).
  repeat split; auto.
  revert C. unfold cycle, observe. unfold bind.
  destruct (acquire G stride inp s) as [[rgb|e] s0] eqn:A; [|discriminate].
  assert (A' := A). apply acquire_ok in A'. destruct A' as [-> _].
  rewrite gate_first by exact L. unfold ret.
  destruct (report G inp rgb _) as [r s2] eqn:R.
  apply report_frame in R. cbn [set_img_list img_list] in R.
  destruct R as (R1 & _). intros H. inv_pair. rewrite R1. f_equal.
  revert A. unfold acquire, reshape2. unfold_m. cbn [snd lowresSize].
  destruct (_ =? _); [|discriminate].
  destruct (load_global G "cv2"); [|discriminate].
  unfold cv2_cvtColor_GRAY2RGB, gray2rgb. cbn [shape data].
  destruct (firstn _ _) as [|p l]; [discriminate|].
  destruct (load_global G "vision"); [|discriminate].
  intros H. inv_pair. reflexivity.
Qed.

(** X6: no two consecutive cycles complete.  In every namespace, binding
    [np] or not, a loop of two or more cycles entered with at most one frame
    in the history ends in an exception: the frame a completed cycle leaves
    in the history has three axes, and the next comparison unpacks two. *)
Theorem no_two_cycles_complete :
  forall (G : list string) (stride : nat) (inp1 inp2 : cycle_input)
         (rest : list cycle_input) (s : state),
    (List.length (img_list s) <= 1)%nat ->
    exists e s', loop G stride (inp1 :: inp2 :: rest) s = (Raised e, s').
Proof.
  intros G stride inp1 inp2 rest s Hl. cbn [loop]. unfold bind at 1.
  destruct (cycle G stride inp1 s) as [[[]|e] s1] eqn:C1; [|eauto].
  destruct (cycle_ok_inv G stride inp1 s s1 Hl C1) as (_ & [l L1] & _ & _).
  unfold bind.
  destruct (cycle G stride inp2 s1) as [[[]|e] s2] eqn:C2; [|eauto].
  assert (Hl1 : (List.length (img_list s1) <= 1)%nat) by (rewrite L1; simpl; lia).
  destruct (cycle_ok_inv G stride inp2 s1 s2 Hl1 C2) as (E & _).
  rewrite L1 in E. discriminate E.
Qed.

Lemma acquire_ok_frame (G : list string) (stride : nat) (inp : cycle_input)
  (s s' : state) (rgb : ndarray) :
  acquire G stride inp s = (Ok rgb, s') ->
  rgb = rgb_frame 240 (Z.of_nat stride)
          (firstn (Z.to_nat (Z.of_nat stride * 240)) (buffer inp)).
Proof.
  unfold acquire, reshape2. unfold_m. cbn [snd lowresSize].
  destruct (_ =? _); [|discriminate].
  destruct (load_global G "cv2"); [|discriminate].
  unfold cv2_cvtColor_GRAY2RGB, gray2rgb. cbn [shape data].
  destruct (firstn _ _) as [|p l]; [discriminate|].
  destruct (load_global G "vision"); [|discriminate].
  intros H. inv_pair. reflexivity.
Qed.

Lemma report_trace (G : list string) (inp : cycle_input) (rgb : ndarray)
  (s s' : state) (r : result unit) :
  report G inp rgb s = (r, s') ->
  trace s' = trace s \/
  (trace s' = trace s ++ [Detect rgb] /\ r <> Ok tt) \/
  (trace s' = trace s ++ [Detect rgb; PrintData (fps s')] /\ r = Ok tt).
Proof.
  unfold report. unfold bind at 1. unfold load_mse. unfold_m.
  destruct (mse s) as [m|]; [|intros; inv_pair; auto].
  destruct (float_ne0 m); [|intros; inv_pair; auto].
  destruct (refresh_fps G inp (emit (Detect rgb) s)) as [[u|e] s1] eqn:R;
    apply refresh_fps_frame in R; cbn [emit trace] in R;
    destruct R as (_ & _ & _ & R).
  - destruct (load_global G "utils"); intros; inv_pair.
    + right. right. cbn [emit trace fps]. rewrite R, <- app_assoc.
      split; reflexivity.
    + right. left. split; [exact R|discriminate].
  - intros; inv_pair. right. left. split; [exact R|discriminate].
Qed.

(** X7: the sink is only ever called right after the detector, in the same
    cycle.  In every namespace and from every state, a cycle extends the
    trace by nothing, or by the detection of its own frame alone when an
    exception follows it, or by that detection and the emission of the fps
    the cycle leaves, and then it completes. *)
Theorem emission_follows_detection :
  forall (G : list string) (stride : nat) (inp : cycle_input) (s : state),
    let rgb := rgb_frame 240 (Z.of_nat stride)
                 (firstn (Z.to_nat (Z.of_nat stride * 240)) (buffer inp)) in
    let r := fst (cycle G stride inp s) in
    let s' := snd (cycle G stride inp s) in
    trace s' = trace s \/
    (trace s' = trace s ++ [Detect rgb] /\ r <> Ok tt) \/
    (trace s' = trace s ++ [Detect rgb; PrintData (fps s')] /\ r = Ok tt).
Proof.
  intros G stride inp s rgb. unfold cycle, observe. unfold bind.
  destruct (acquire G stride inp s) as [[rgb0|e] s0] eqn:A.
  - assert (F := acquire_ok_frame G stride inp s s0 rgb0 A).
    apply acquire_ok in A. destruct A as [-> _]. fold rgb in F. subst rgb0.
    destruct (gate G rgb _) as [[u|e] s1] eqn:Gt;
      apply gate_frame in Gt; cbn [set_counter trace] in Gt;
      destruct Gt as (_ & _ & _ & T).
    + unfold ret. destruct (report G inp rgb s1) as [r s2] eqn:R.
      apply report_trace in R. cbn [fst snd]. rewrite <- T. exact R.
    + left. exact T.
  - left. cbn [snd]. apply acquire_state in A.
    destruct A as [->| ->]; reflexivity.
Qed.

Lemma cycle_counter (G : list string) (stride : nat) (inp : cycle_input)
  (s s' : state) (r : result unit) :
  cycle G stride inp s = (r, s') ->
  (counter s' = counter s \/ counter s' = counter s + 1) /\
  (r = Ok tt -> counter s' = counter s + 1).
Proof.
  unfold cycle, observe. unfold bind.
  destruct (acquire G stride inp s) as [[rgb|e] s0] eqn:A.
  - apply acquire_ok in A. destruct A as [-> _].
    destruct (gate G rgb _) as [[u|e] s1] eqn:Gt;
      apply gate_frame in Gt; cbn [set_counter counter] in Gt;
      destruct Gt as (Hc & _).
    + unfold ret. destruct (report G inp rgb s1) as [r1 s2] eqn:R.
      apply report_frame in R. destruct R as (_ & R & _).
      intros H. inv_pair. rewrite R, Hc. auto.
    + intros H. inv_pair. rewrite Hc. auto.
  - intros H. inv_pair. apply acquire_state in A.
    destruct A as [->| ->]; cbn [set_counter counter];
      (split; [auto|discriminate]).
Qed.

(** X8: the counter counts captured frames.  In every namespace and from
    every state, a loop over [n] inputs never lowers the counter and raises
    it by at most [n]; when the loop completes, by exactly [n]. *)
Theorem counter_counts_captures :
  forall (G : list string) (stride : nat) (inps : list cycle_input)
         (s : state),
    let r := fst (loop G stride inps s) in
    let s' := snd (loop G stride inps s) in
    counter s <= counter s' <= counter s + Z.of_nat (List.length inps) /\
    (r = Ok tt -> counter s' = counter s + Z.of_nat (List.length inps)).
Proof.
  intros G stride inps. induction inps as [|inp rest IH]; intros s.
  - cbn. split; [lia|intros _; lia].
  - cbn [loop]. unfold bind.
    destruct (cycle G stride inp s) as [[u|e] s1] eqn:C;
      apply cycle_counter in C; destruct C as [C1 C2].
    + destruct u. specialize (C2 eq_refl). specialize (IH s1).
      cbn zeta in IH. destruct IH as [IH1 IH2].
      cbn [List.length]. rewrite Nat2Z.inj_succ.
      split; [lia|]. intros H. specialize (IH2 H). lia.
    + cbn [fst snd List.length]. rewrite Nat2Z.inj_succ.
      split; [lia|discriminate].
Qed.

(** X9: when the clock has not advanced since the window start and the
    counter is a multiple of 10, a cycle that passes the test of line 77
    raises ZeroDivisionError at line 87: the detector has been called, the
    sink has not, and fps and the window start are as they were. *)
Theorem zero_elapsed_time_raises_after_detection :
  forall (stride : nat) (inp : cycle_input) (s s1 : state) (rgb : ndarray)
         (m : pyfloat),
    observe module_names stride inp s = (Ok rgb, s1) ->
    mse s1 = Some m ->
    float_ne0 m = true ->
    counter s1 mod 10 = 0 ->
    (now_end inp == start_time s)%Q ->
    cycle module_names stride inp s
    = (Raised ZeroDivisionError, emit (Detect rgb) s1) /\
    fps s1 = fps s /\ start_time s1 = start_time s.
Proof.
  intros stride inp s s1 rgb m Ho Hm Hp Hc Ht.
  destruct (observe_ok module_names stride inp s s1 rgb Ho)
    as (_ & Hf & Hs & _ & _).
  split; [|auto].
  unfold cycle, bind. rewrite Ho.
  unfold report. unfold bind at 1. unfold load_mse. unfold_m.
  rewrite Hm, Hp. unfold refresh_fps, fps_avg_frame_count. unfold_m.
  cbn [emit counter start_time]. rewrite Hc. cbn [Z.eqb].
  change (load_global module_names "time") with (Ok tt). cbn iota.
  rewrite <- Hs in Ht. apply Qnum_minus_zero in Ht.
  change (start_time (emit (Detect rgb) s1)) with (start_time s1).
  rewrite Ht. reflexivity.
Qed.

Lemma run_in_cases (G : list string) (stride : nat) (now : Q) :
  (forall inps, run_in G stride now inps = loop G stride inps (init_state now))
  \/ exists e, forall inps, run_in G stride now inps = (Raised e, init_state now).
Proof.
  unfold run_in. unfold bind, lift.
  repeat match goal with
         | |- context [load_global G ?x] =>
             destruct (load_global G x);
             [|right; eexists; intros; reflexivity]
         end.
  left. intros. reflexivity.
Qed.

(** X10: [run] reads one frame and no more, with or without numpy.  In every
    namespace the first cycle ends in an exception, [mse] being unbound at
    line 77 if nothing fails earlier; the frames that follow are never read,
    the detector and the sink are never called, and the counter is at most
    1. *)
Theorem run_stops_in_first_cycle :
  forall (G : list string) (stride : nat) (now : Q) (inp : cycle_input)
         (rest : list cycle_input),
    exists e s',
      run_in G stride now (inp :: rest) = (Raised e, s') /\
      run_in G stride now [inp] = (Raised e, s') /\
      trace s' = [] /\ mse s' = None /\ 0 <= counter s' <= 1.
Proof.
  intros G stride now inp rest.
  destruct (run_in_cases G stride now) as [R | [e R]]; rewrite !R.
  2:{ exists e, (init_state now). repeat split; cbn; lia. }
  cbn [loop]. unfold bind.
  destruct (cycle_unbound_raises G stride inp (init_state now))
    as (e & s' & C & T); [reflexivity|reflexivity|].
  rewrite C. exists e, s'. split; [reflexivity|]. split; [reflexivity|].
  split; [exact T|].
  assert (Cc := cycle_counter G stride inp (init_state now) _ _ C).
  destruct Cc as [Cc _]. cbn [init_state counter] in Cc.
  split; [|lia].
  revert C. unfold cycle, observe. unfold bind.
  destruct (acquire G stride inp (init_state now)) as [[rgb|e0] s0] eqn:A.
  - apply acquire_ok in A. destruct A as [-> _].
    rewrite gate_first by reflexivity. unfold ret.
    rewrite report_unbound by reflexivity.
    intros H. inv_pair. reflexivity.
  - intros H. inv_pair. apply acquire_state in A.
    destruct A as [->| ->]; reflexivity.
Qed.

Lemma gate_module_mse (rgb : ndarray) (s : state) :
  mse (snd (gate module_names rgb s)) = mse s.
Proof.
  destruct (img_list s) as [|a l] eqn:L.
  - rewrite gate_first by exact L. reflexivity.
  - rewrite (gate_next module_names rgb a l) by (auto; reflexivity).
    fold (get_mse a (hd rgb (l ++ [rgb]))).
    destruct (get_mse_raises a (hd rgb (l ++ [rgb]))) as [e [-> _]].
    reflexivity.
Qed.

Lemma cycle_module_mse (stride : nat) (inp : cycle_input) (s : state) :
  mse (snd (cycle module_names stride inp s)) = mse s.
Proof.
  unfold cycle, observe. unfold bind.
  destruct (acquire module_names stride inp s) as [[rgb|e] s0] eqn:A.
  - apply acquire_ok in A. destruct A as [-> _].
    assert (Gm := gate_module_mse rgb (set_counter (counter s + 1) s)).
    destruct (gate module_names rgb _) as [[u|e] s1]; cbn [snd] in Gm.
    + unfold ret. destruct (report module_names inp rgb s1) as [r s2] eqn:R.
      apply report_frame in R. destruct R as (_ & _ & R).
      cbn [snd]. rewrite R. exact Gm.
    + exact Gm.
  - apply acquire_state in A. destruct A as [->| ->]; reflexivity.
Qed.

(** X11: the module never assigns the score.  From every state and over
    every sequence of frames, the loop leaves [mse] as it found it: line 74
    never completes. *)
Theorem mse_is_never_assigned :
  forall (stride : nat) (inps : list cycle_input) (s : state),
    mse (snd (loop module_names stride inps s)) = mse s.
Proof.
  intros stride inps. induction inps as [|inp rest IH]; intros s.
  - reflexivity.
  - cbn [loop]. unfold bind.
    assert (C := cycle_module_mse stride inp s).
    destruct (cycle module_names stride inp s) as [[u|e] s1]; cbn [snd] in C.
    + rewrite IH. exact C.
    + exact C.
Qed.

(** ** The arithmetic of lines 146-148

    The module does not bind [np], so [get_mse] never gets past line 147.
    The two statements below are about the remaining lines, in a namespace
    that binds [cv2] and [np]. *)

Lemma saturate_u8_range (z : Z) : 0 <= saturate_u8 z <= 255.
Proof. unfold saturate_u8. lia. Qed.

Lemma square_wraps_to_zero (d : Z) :
  0 <= d <= 255 -> ((d * d) mod 256 = 0 <-> d mod 16 = 0).
Proof.
  intros Hd.
  assert (T : forallb
                (fun n => Bool.eqb ((Z.of_nat n * Z.of_nat n) mod 256 =? 0)
                                   (Z.of_nat n mod 16 =? 0))
                (seq 0 256) = true) by (vm_compute; reflexivity).
  rewrite forallb_forall in T.
  specialize (T (Z.to_nat d)).
  rewrite Z2Nat.id in T by lia.
  assert (I : In (Z.to_nat d) (seq 0 256)) by (apply in_seq; lia).
  apply T, Bool.eqb_prop in I.
  rewrite <- !Z.eqb_eq, I. reflexivity.
Qed.

Lemma squares_sum_range (l : list Z) :
  0 <= fold_right Z.add 0 (map (fun d => (d * d) mod 256) l)
    <= 255 * Z.of_nat (List.length l).
Proof.
  induction l as [|d l IH].
  - simpl. lia.
  - cbn [map fold_right List.length]. rewrite Nat2Z.inj_succ.
    assert (0 <= (d * d) mod 256 < 256) by (apply Z.mod_pos_bound; lia).
    lia.
Qed.

Lemma squares_sum_zero (l1 l2 : list Z) :
  List.length l1 = List.length l2 ->
  (fold_right Z.add 0
     (map (fun d => (d * d) mod 256)
        (zip_with (fun x y => saturate_u8 (x - y)) l1 l2)) = 0
   <-> Forall2 (fun x y => saturate_u8 (x - y) mod 16 = 0) l1 l2).
Proof.
  revert l2. induction l1 as [|x l1 IH]; intros [|y l2] Hl;
    try discriminate Hl.
  - simpl. split; [constructor|reflexivity].
  - cbn [zip_with map fold_right].
    injection Hl as Hl. specialize (IH l2 Hl).
    pose proof (squares_sum_range
                  (zip_with (fun x y => saturate_u8 (x - y)) l1 l2)) as R.
    pose proof (saturate_u8_range (x - y)) as S.
    pose proof (square_wraps_to_zero (saturate_u8 (x - y)) S) as Q.
    assert (0 <= (saturate_u8 (x - y) * saturate_u8 (x - y)) mod 256 < 256)
      by (apply Z.mod_pos_bound; lia).
    split.
    + intros H0. constructor; [apply Q; lia|apply IH; lia].
    + intros F. inversion F; subst.
      apply Q in H3. apply IH in H5. lia.
Qed.

Lemma zip_with_length (f : Z -> Z -> Z) (l1 l2 : list Z) :
  List.length l1 = List.length l2 ->
  List.length (zip_with f l1 l2) = List.length l1.
Proof.
  revert l2. induction l1 as [|x l1 IH]; intros [|y l2] Hl;
    try discriminate Hl; [reflexivity|].
  cbn [zip_with List.length]. f_equal. apply IH. injection Hl as Hl. exact Hl.
Qed.

Lemma get_mse_in_gray (G : list string) (h w : Z) (l1 l2 : list Z) :
  bound G "cv2" = true -> bound G "np" = true -> h * w <> 0 ->
  get_mse_in G (gray_frame h w l1) (gray_frame h w l2)
  = Ok (Ffin (Qmake
                (fold_right Z.add 0
                   (map (fun d => (d * d) mod 256)
                      (zip_with (fun x y => saturate_u8 (x - y)) l1 l2))
                 mod 2 ^ 64)
                (Z.to_pos (h * w)))).
Proof.
  intros Hc Hn Ha. unfold get_mse_in, load_global.
  rewrite (cv2_subtract_gray h w l1 l2 Ha).
  cbn [gray_frame shape unpack2 rbind]. rewrite Hc, Hn.
  cbn [rbind py_pow2 fst snd]. unfold np_sum, ndarray_pow2. cbn [data].
  unfold true_divide.
  destruct (h * w =? 0) eqn:E; [apply Z.eqb_eq in E; contradiction|].
  reflexivity.
Qed.

(** X12: where [np] is numpy, the score of two single-channel frames of the
    same shape is zero exactly when, at every pixel, the older frame exceeds
    the newer by a multiple of 16 or not at all: the difference is saturated
    at 0 and its square is reduced mod 256 before the sum. *)
Theorem zero_score_iff_differences_wrap :
  forall (G : list string) (h w : Z) (l1 l2 : list Z),
    bound G "cv2" = true -> bound G "np" = true ->
    h * w <> 0 ->
    List.length l1 = List.length l2 ->
    Z.of_nat (List.length l1) < 2 ^ 56 ->
    exists q,
      get_mse_in G (gray_frame h w l1) (gray_frame h w l2) = Ok (Ffin q) /\
      (float_ne0 (Ffin q) = false <->
       Forall2 (fun x y => saturate_u8 (x - y) mod 16 = 0) l1 l2).
Proof.
  intros G h w l1 l2 Hc Hn Ha Hl Hs.
  rewrite (get_mse_in_gray G h w l1 l2 Hc Hn Ha).
  eexists. split; [reflexivity|].
  cbn [float_ne0 Qnum].
  pose proof (squares_sum_range
                (zip_with (fun x y => saturate_u8 (x - y)) l1 l2)) as R.
  rewrite zip_with_length in R by exact Hl.
  rewrite Z.mod_small by (change (2 ^ 64) with (256 * 2 ^ 56); lia).
  rewrite <- (squares_sum_zero l1 l2 Hl).
  rewrite negb_false_iff. apply Z.eqb_eq.
Qed.

(** X13: where [np] is numpy, a newer frame that is nowhere darker than the
    older one scores exactly zero, however much brighter it is:
    [cv2.subtract] takes the older frame minus the newer and saturates at
    0. *)
Theorem brighter_frame_scores_zero :
  forall (G : list string) (h w : Z) (l1 l2 : list Z),
    bound G "cv2" = true -> bound G "np" = true ->
    h * w <> 0 ->
    Forall2 Z.le l1 l2 ->
    get_mse_in G (gray_frame h w l1) (gray_frame h w l2)
    = Ok (Ffin (Qmake 0 (Z.to_pos (h * w)))).
Proof.
  intros G h w l1 l2 Hc Hn Ha F.
  rewrite (get_mse_in_gray G h w l1 l2 Hc Hn Ha).
  assert (Z0 : fold_right Z.add 0
                 (map (fun d => (d * d) mod 256)
                    (zip_with (fun x y => saturate_u8 (x - y)) l1 l2)) = 0).
  { induction F as [|x y l1 l2 Hxy F IH]; [reflexivity|].
    cbn [zip_with map fold_right]. rewrite IH.
    replace (saturate_u8 (x - y)) with 0 by (unfold saturate_u8; lia).
    reflexivity. }
  rewrite Z0. reflexivity.
Qed.

(** ** The fps refresh (lines 85-88) *)

Lemma ten_over_positive (d : Q) : (0 < d -> 0 < 10 / d)%Q.
Proof.
  destruct d as [[|p|p] q]; unfold Qlt, Qdiv, Qmult, Qinv; simpl; intros H;
    try lia; discriminate H.
Qed.

Lemma ten_over_negative (d : Q) : (d < 0 -> 10 / d < 0)%Q.
Proof.
  destruct d as [[|p|p] q]; unfold Qlt, Qdiv, Qmult, Qinv; simpl; intros H;
    try lia; discriminate H.
Qed.

(** X14: the refresh takes the clock as it comes.  When the counter is a
    multiple of 10, the fps it stores is positive if the reading of line 86
    is later than the window start and negative if it is earlier, as after a
    step back of the wall clock; there is no guard. *)
Theorem fps_sign_follows_the_clock :
  forall (inp : cycle_input) (s : state),
    counter s mod 10 = 0 ->
    ~ (now_end inp == start_time s)%Q ->
    let s' := snd (refresh_fps module_names inp s) in
    fst (refresh_fps module_names inp s) = Ok tt /\
    ((start_time s < now_end inp)%Q -> (0 < fps s')%Q) /\
    ((now_end inp < start_time s)%Q -> (fps s' < 0)%Q).
Proof.
  intros inp s Hc Ht. rewrite (refresh_fps_at_multiple inp s Hc Ht).
  cbn [fst snd set_start_time set_fps fps].
  split; [reflexivity|]. split; intros H.
  - apply ten_over_positive. unfold Qminus. rewrite <- Qlt_minus_iff. exact H.
  - apply ten_over_negative.
    apply (Qplus_lt_l _ _ (start_time s)).
    unfold Qminus. rewrite <- Qplus_assoc, (Qplus_comm (- start_time s)),
      Qplus_opp_r, Qplus_0_r, Qplus_0_l. exact H.
Qed.

End OpenCV.

(** * The statements at concrete inputs

    The inputs below are frames of two or three axes and the black buffer;
    none of them reaches what [opencv] leaves open. *)

#[local] Existing Instance strict_opencv.

Lemma first_frame_raises_unbound_local_witness :
  run 320 0%Q [black_input]
  = (Raised (UnboundLocalError "mse"),
     mk_state 1 0%Q 0%Q
       [rgb_frame 240 320 (firstn (Z.to_nat (320 * 240)) black_buffer)]
       None []).
Proof.
  apply (proj2 first_frame_raises_unbound_local 320%nat 0%Q black_input []).
  - apply Nat.lt_0_succ.
  - exact black_buffer_covers.
Defined.

(** C3, as stated, fails on the first cycle of [run]: the history holds no
    earlier frame, so no score is computable and the decision is BLOCK, yet
    the cycle is not silent: line 64 has moved the counter of the fps
    estimator from 0 to 1. *)
Lemma first_cycle_is_not_silent :
  decision_is_block module_names 320 black_input (init_state 0) /\
  counter (snd (cycle module_names 320 black_input (init_state 0))) = 1 /\
  ~ cycle_is_silent module_names 320 black_input (init_state 0).
Proof.
  assert (C : cycle module_names 320 black_input (init_state 0)
              = (Raised (UnboundLocalError "mse"),
                 set_img_list
                   [rgb_frame 240 320
                      (firstn (Z.to_nat (320 * 240)) black_buffer)]
                   (set_counter (0 + 1) (init_state 0)))).
  { apply (cycle_first_frame 320 black_input (init_state 0));
      [reflexivity|reflexivity|apply Nat.lt_0_succ|exact black_buffer_covers]. }
  split; [|split].
  - eexists _, _. split.
    + apply observe_first_frame;
        [reflexivity|apply Nat.lt_0_succ|exact black_buffer_covers].
    + left. reflexivity.
  - rewrite C. reflexivity.
  - intros (s' & C' & _ & Hc & _).
    assert (E : counter (snd (cycle module_names 320 black_input (init_state 0)))
                = counter s') by (rewrite C'; reflexivity).
    rewrite C in E. cbn in E. rewrite Hc in E. discriminate E.
Qed.

Lemma zero_score_cycle_only_counts_witness :
  let s := mk_state 4 0%Q 0%Q [] (Some (Ffin 0)) [] in
  let rgb := rgb_frame 240 320 (firstn (Z.to_nat (320 * 240)) black_buffer) in
  let s1 := mk_state 5 0%Q 0%Q [rgb] (Some (Ffin 0)) [] in
  cycle module_names 320 black_input s = (Ok tt, s1) /\
  trace s1 = trace s /\ fps s1 = fps s /\ start_time s1 = start_time s /\
  counter s1 = counter s + 1.
Proof.
  intros s rgb s1.
  apply (zero_score_cycle_only_counts module_names 320 black_input s s1 rgb
           (Ffin 0)).
  - apply (observe_first_frame 320 black_input s);
      [reflexivity|apply Nat.lt_0_succ|exact black_buffer_covers].
  - reflexivity.
  - reflexivity.
Defined.



Lemma history_never_exceeds_two_witness :
  let s := mk_state 1 0%Q 0%Q [rgb_frame 1 1 [0]] None [] in
  ((List.length (img_list (snd (cycle module_names 320 black_input s))) <= 2)%nat
   /\ (fst (cycle module_names 320 black_input s) = Ok tt ->
       (List.length (img_list (snd (cycle module_names 320 black_input s)))
        <= 1)%nat)) /\
  gate ("get_mse" :: numpy_names) (gray_frame 1 1 [5])
    (set_img_list [gray_frame 1 1 [9]] s)
  = (Ok tt, set_mse (Ffin 16) (set_img_list [gray_frame 1 1 [5]] s)).
Proof.
  intros s.
  destruct history_never_exceeds_two as (_ & HC & _ & HG).
  split.
  - apply (HC module_names 320%nat black_input s). simpl. apply le_n.
  - apply (HG numpy_names (gray_frame 1 1 [9]) (gray_frame 1 1 [5]) s (Ffin 16)).
    reflexivity.
Defined.



Lemma get_mse_always_raises_witness :
  let A := gray_frame 1 1 [3] in
  let rgb := rgb_frame 240 320 (firstn (Z.to_nat (320 * 240)) black_buffer) in
  get_mse A A = Raised (NameError "np") /\
  (shape rgb = [240; 320; 3] /\ get_mse rgb rgb = Raised ValueError) /\
  exists e s',
    cycle module_names 320 black_input
      (mk_state 1 0%Q 0%Q [rgb] None []) = (Raised e, s').
Proof.
  intros A rgb.
  destruct get_mse_always_raises as (_ & _ & HN & HV & HC).
  split; [|split].
  - apply (HN A A (Some (mk_ndarray [1; 1] [0])) 1 1); reflexivity.
  - apply (HV 320%nat black_input (init_state 0)
              (set_counter (0 + 1) (init_state 0)) rgb rgb).
    apply (acquire_module_names 320 black_input (init_state 0));
      [apply Nat.lt_0_succ|exact black_buffer_covers].
  - apply (HC 320%nat black_input (mk_state 1 0%Q 0%Q [rgb] None [])).
    intros H. discriminate H.
Defined.

Lemma get_mse_ignores_pixels_witness :
  get_mse (gray_frame 1 2 [0; 0]) (gray_frame 1 2 [0; 0])
  = get_mse (gray_frame 1 2 [255; 7]) (gray_frame 1 2 [0; 200]).
Proof.
  apply (get_mse_ignores_pixels (gray_frame 1 2 [0; 0]) (gray_frame 1 2 [0; 0])
           (gray_frame 1 2 [255; 7]) (gray_frame 1 2 [0; 200]));
    reflexivity.
Defined.

Lemma short_buffer_raises_before_counting_witness :
  let inp := mk_input [1; 2; 3] 1%Q 1%Q in
  cycle module_names 320 inp (init_state 0) = (Raised ValueError, init_state 0)
  /\ loop module_names 320 [inp; black_input] (init_state 0)
     = (Raised ValueError, init_state 0).
Proof.
  intros inp.
  apply (short_buffer_raises_before_counting module_names 320 inp
           [black_input] (init_state 0)).
  cbn. reflexivity.
Defined.

Lemma bytes_past_the_rows_are_ignored_witness :
  cycle module_names 320
    (mk_input (black_buffer ++ [9; 9]) 1%Q 1%Q) (init_state 0)
  = cycle module_names 320 black_input (init_state 0).
Proof.
  apply (bytes_past_the_rows_are_ignored module_names 320 black_input [9; 9]
           (init_state 0)).
  exact black_buffer_covers.
Defined.

Lemma completed_cycle_tested_a_stale_score_witness :
  let s := mk_state 4 0%Q 0%Q [] (Some (Ffin 0)) [] in
  let rgb := rgb_frame 240 320 (firstn (Z.to_nat (320 * 240)) black_buffer) in
  let s' := mk_state 5 0%Q 0%Q [rgb] (Some (Ffin 0)) [] in
  img_list s = [] /\ mse s' = mse s /\ counter s' = counter s + 1 /\
  img_list s' = [rgb].
Proof.
  intros s rgb s'.
  apply (completed_cycle_tested_a_stale_score module_names 320 black_input
           s s').
  - apply Nat.le_0_l.
  - unfold cycle, bind.
    rewrite (observe_first_frame 320 black_input s);
      [reflexivity|reflexivity|apply Nat.lt_0_succ|exact black_buffer_covers].
Defined.

Lemma no_two_cycles_complete_witness :
  exists e s',
    loop numpy_names 320 [black_input; black_input]
      (mk_state 4 0%Q 0%Q [] (Some (Ffin 1)) []) = (Raised e, s').
Proof.
  apply (no_two_cycles_complete numpy_names 320 black_input black_input []
           (mk_state 4 0%Q 0%Q [] (Some (Ffin 1)) [])).
  apply Nat.le_0_l.
Defined.

Lemma counter_counts_captures_witness :
  let s := mk_state 4 0%Q 0%Q [] (Some (Ffin 0)) [] in
  let r := fst (loop module_names 320 [black_input] s) in
  let s' := snd (loop module_names 320 [black_input] s) in
  (counter s <= counter s' <= counter s + 1 /\
   (r = Ok tt -> counter s' = counter s + 1)) /\
  r = Ok tt.
Proof.
  intros s r s'. split.
  - exact (counter_counts_captures module_names 320 [black_input] s).
  - unfold r. cbn [loop]. unfold bind at 1. unfold cycle, bind.
    rewrite (observe_first_frame 320 black_input s);
      [|reflexivity|apply Nat.lt_0_succ|exact black_buffer_covers].
    reflexivity.
Defined.

Lemma zero_elapsed_time_raises_after_detection_witness :
  let s := mk_state 9 0%Q 1%Q [] (Some (Ffin 1)) [] in
  let rgb := rgb_frame 240 320 (firstn (Z.to_nat (320 * 240)) black_buffer) in
  let s1 := mk_state 10 0%Q 1%Q [rgb] (Some (Ffin 1)) [] in
  cycle module_names 320 black_input s
  = (Raised ZeroDivisionError, emit (Detect rgb) s1) /\
  fps s1 = fps s /\ start_time s1 = start_time s.
Proof.
  intros s rgb s1.
  apply (zero_elapsed_time_raises_after_detection 320 black_input s s1 rgb
           (Ffin 1)).
  - apply (observe_first_frame 320 black_input s);
      [reflexivity|apply Nat.lt_0_succ|exact black_buffer_covers].
  - reflexivity.
  - reflexivity.
  - reflexivity.
  - reflexivity.
Defined.

Lemma zero_score_iff_differences_wrap_witness :
  exists q,
    get_mse_in numpy_names (gray_frame 1 3 [16; 40; 7]) (gray_frame 1 3 [0; 8; 9])
    = Ok (Ffin q) /\
    (float_ne0 (Ffin q) = false <->
     Forall2 (fun x y => saturate_u8 (x - y) mod 16 = 0) [16; 40; 7] [0; 8; 9]).
Proof.
  apply (zero_score_iff_differences_wrap numpy_names 1 3 [16; 40; 7] [0; 8; 9]).
  - reflexivity.
  - reflexivity.
  - intros H. discriminate H.
  - reflexivity.
  - reflexivity.
Defined.

Lemma brighter_frame_scores_zero_witness :
  get_mse_in numpy_names (gray_frame 1 2 [0; 10]) (gray_frame 1 2 [255; 10])
  = Ok (Ffin (Qmake 0 (Z.to_pos (1 * 2)))).
Proof.
  apply (brighter_frame_scores_zero numpy_names 1 2 [0; 10] [255; 10]).
  - reflexivity.
  - reflexivity.
  - intros H. discriminate H.
  - repeat constructor; apply Z.leb_le; reflexivity.
Defined.

Lemma fps_sign_follows_the_clock_witness :
  let inp := mk_input [] 3%Q 3%Q in
  let s := mk_state 20 0%Q 5%Q [] (Some (Ffin 1)) [] in
  let s' := snd (refresh_fps module_names inp s) in
  fst (refresh_fps module_names inp s) = Ok tt /\ (fps s' < 0)%Q.
Proof.
  intros inp s s'.
  destruct (fps_sign_follows_the_clock inp s) as (H1 & _ & H3).
  - reflexivity.
  - intros H. discriminate H.
  - split; [exact H1|apply H3; reflexivity].
Defined.
